(** * Trade-feedback rule evaluators (src/main.py)

    A shallow embedding of the FastAPI service in [src/main.py]: the
    [/analyze-trade] handler and its three rule evaluators
    ([analyze_risk], [analyze_costs_and_slippage], [analyze_behavior]).

    Modelling choices.
    - The request body is JSON that follows the data model: every key may
      be absent ([None], which is what [dict.get] sees), and a key that is
      present holds a value of the expected kind.
    - Python numbers ([int] and [float]) are exact rationals [Q]; the
      literals 0.90, 0.001, 0.005 are 9/10, 1/1000, 5/1000.  Rounding,
      infinities and NaN of IEEE doubles are outside the model.  Python's
      [/] raises [ZeroDivisionError] on a zero divisor, which [Q] does not:
      [py_div] writes that out.
    - [send_feedback_to_nestjs] posts one payload and swallows every
      failure of the delivery, so a call is modelled by the payload it
      hands to the sink: the evaluators run in a writer monad over the
      list of payloads, with an exception channel.
    - The f-string of a message is kept as its template (a constructor of
      [message]) together with the values interpolated into it. *)

From Stdlib Require Import QArith Qminmax Lqa Lia.
From stdpp Require Import base option list strings gmap.

Local Open Scope Q_scope.

(** ** Data model *)

Record holding := Holding {
  h_activeSymbol : option string;
  h_quantity : option Q
}.

Record portafolio := Portafolio {
  p_id : option string;
  p_holdings : option (list holding);
  p_cash : option Q
}.

Record transaction := Transaction {
  t_portafolioId : option string;
  t_activeSymbol : option string;
  t_type : option string;
  t_price : option Q;
  t_amount : option Q
}.

Record ticker := Ticker {
  k_price : option Q;
  k_best_ask : option Q;
  k_best_bid : option Q;
  k_price_percent_chg_24_h : option Q
}.

(** The body of [POST /analyze-trade]. *)
Record request := Request {
  r_portafolio : option portafolio;
  r_transaction : option transaction;
  r_marketData : option (gmap string ticker)
}.

(** [{}] read as a portfolio, a transaction. *)
Definition empty_portafolio : portafolio := Portafolio None None None.
Definition empty_transaction : transaction := Transaction None None None None None.

(** ** Notifications *)

Inductive feedback_type := RISK_ALERT | COST_ANALYSIS | BEHAVIORAL_NUDGE.

(** One constructor per f-string of the source, with its interpolated
    values. *)
Inductive message :=
| MsgAllIn (percent : Q) (symbol : option string)
| MsgConcentration (percent : Q) (symbol : string)
| MsgCost (symbol : option string) (commission : Q)
| MsgSlippage (tx_type : option string) (symbol : option string) (percent : Q)
| MsgFomo (symbol : option string) (change : Q)
| MsgPanic (symbol : option string) (change : Q).

(** The payload of [send_feedback_to_nestjs]. *)
Record payload := Payload {
  portafolioId : option string;
  msg : message;
  type : feedback_type
}.

(** ** Effects: dispatched payloads and exceptions *)

Inductive exn := ZeroDivisionError.

Record run (A : Type) := Run {
  sent : list payload;
  outcome : exn + A
}.
Arguments Run {A} _ _.
Arguments sent {A} _.
Arguments outcome {A} _.

Definition ret {A} (a : A) : run A := Run [] (inr a).
Definition raise {A} (e : exn) : run A := Run [] (inl e).
Definition bind {A B} (f : A → run B) (m : run A) : run B :=
  match outcome m with
  | inl e => Run (sent m) (inl e)
  | inr a => let r := f a in Run (sent m ++ sent r) (outcome r)
  end.

(** stdpp's monad notations: [x ← m; k] and [m;; k]. *)
#[export] Instance run_ret : MRet run := @ret.
#[export] Instance run_bind : MBind run := @bind.

(** [for x in l: body x] *)
Fixpoint for_each {A} (l : list A) (body : A → run unit) : run unit :=
  match l with
  | [] => ret tt
  | x :: l' => body x ;; for_each l' body
  end.

Definition send_feedback_to_nestjs
    (portafolio_id : option string) (m : message) (ty : feedback_type) : run unit :=
  Run [Payload portafolio_id m ty] (inr tt).

(** ** Python operators on numbers and strings *)

Definition py_gt (x y : Q) : bool := negb (Qle_bool x y).
Definition py_lt (x y : Q) : bool := negb (Qle_bool y x).

Definition py_div (x y : Q) : run Q :=
  if Qeq_bool y 0 then raise ZeroDivisionError else ret (x / y).

(** [tx_type == "BUY"] on a value that may be [None]. *)
Definition str_eq (v : option string) (s : string) : bool :=
  match v with
  | Some s' => String.eqb s' s
  | None => false
  end.

(** Truth value of [portafolio.get("id")]: [None] and [""] are falsy. *)
Definition truthy (v : option string) : bool :=
  match v with
  | Some s => negb (String.eqb s "")
  | None => false
  end.

(** [symbol in market_data] and [market_data[symbol]] in one lookup; the
    keys of a JSON object are strings, so [None] is never a key. *)
Definition market_lookup (symbol : option string) (market_data : gmap string ticker)
    : option ticker :=
  match symbol with
  | Some s => market_data !! s
  | None => None
  end.

(** [d[k] = v] on an insertion-ordered dict: an existing key keeps its
    place and takes the new value, a new key goes last. *)
Fixpoint dict_set (d : list (string * Q)) (k : string) (v : Q) : list (string * Q) :=
  match d with
  | [] => [(k, v)]
  | (k', v') :: d' =>
      if String.eqb k' k then (k', v) :: d' else (k', v') :: dict_set d' k v
  end.


(** ** Constants *)

Definition SIMULATED_FEE_RATE : Q := 5 # 1000.
Definition SLIPPAGE_TOLERANCE : Q := 1 # 1000.

(** ** analyze_risk *)

(** The all-in block (source lines 71-79). *)
Definition all_in_check (portafolio_id : option string) (cash_after_tx : Q)
    (transaction : transaction) : run unit :=
  if str_eq (t_type transaction) "BUY" then
    let tx_cost := default 0 (t_amount transaction) * default 0 (t_price transaction) in
    let cash_before_tx := cash_after_tx + tx_cost in
    if py_gt cash_before_tx 0 then
      ratio ← py_div tx_cost cash_before_tx;
      if py_gt ratio (9 # 10) then
        shown ← py_div tx_cost cash_before_tx;
        send_feedback_to_nestjs portafolio_id
          (MsgAllIn (shown * 100) (t_activeSymbol transaction)) RISK_ALERT
      else ret tt
    else ret tt
  else ret tt.

(** One turn of the valuation loop (source lines 88-96) on the pair
    [(total_value, asset_values)]. *)
Definition valuation_step (market_data : gmap string ticker)
    (acc : Q * list (string * Q)) (h : holding) : Q * list (string * Q) :=
  let symbol := h_activeSymbol h in
  let quantity := default 0 (h_quantity h) in
  match symbol with
  | Some s =>
      match market_data !! s with
      | Some tk =>
          let price := default 0 (k_price tk) in
          let value := quantity * price in
          (fst acc + value, dict_set (snd acc) s value)
      | None => acc
      end
  | None => acc
  end.

Definition valuation (market_data : gmap string ticker) (cash_after_tx : Q)
    (holdings : list holding) : Q * list (string * Q) :=
  fold_left (valuation_step market_data) holdings (cash_after_tx, []).

(** The body of the concentration loop (source lines 103-106). *)
Definition concentration_body (portafolio_id : option string) (total_value : Q)
    (item : string * Q) : run unit :=
  ratio ← py_div (snd item) total_value;
  let concentration := ratio * 100 in
  if py_gt concentration 60 then
    send_feedback_to_nestjs portafolio_id
      (MsgConcentration concentration (fst item)) RISK_ALERT
  else ret tt.

Definition concentration_check (portafolio_id : option string)
    (total_value : Q) (asset_values : list (string * Q)) : run unit :=
  if Qeq_bool total_value 0 then ret tt
  else for_each asset_values (concentration_body portafolio_id total_value).

Definition analyze_risk (portafolio : portafolio) (transaction : transaction)
    (market_data : gmap string ticker) : run unit :=
  let portafolio_id := p_id portafolio in
  let holdings := default [] (p_holdings portafolio) in
  let cash_after_tx := default 0 (p_cash portafolio) in
  all_in_check portafolio_id cash_after_tx transaction;;
  let '(total_value, asset_values) := valuation market_data cash_after_tx holdings in
  concentration_check portafolio_id total_value asset_values.

(** ** analyze_costs_and_slippage *)

Definition commission_paid (transaction : transaction) : Q :=
  let tx_price := default 0 (t_price transaction) in
  let tx_amount := default 0 (t_amount transaction) in
  let total_cost_usd := tx_amount * tx_price in
  total_cost_usd * SIMULATED_FEE_RATE.

(** The informational message the source builds and then leaves unsent
    (the call that would send it is commented out, line 126). *)
Definition msg_cost (transaction : transaction) : message :=
  MsgCost (t_activeSymbol transaction) (commission_paid transaction).

(** Source lines 133-143. *)
Definition slippage_of (transaction : transaction) (ticker : ticker) : Q :=
  let tx_type := t_type transaction in
  let tx_price := default 0 (t_price transaction) in
  if str_eq tx_type "BUY" then
    let best_ask := default tx_price (k_best_ask ticker) in
    if py_gt tx_price best_ask then tx_price - best_ask else 0
  else if str_eq tx_type "SELL" then
    let best_bid := default tx_price (k_best_bid ticker) in
    if py_lt tx_price best_bid then best_bid - tx_price else 0
  else 0.

Definition analyze_costs_and_slippage (transaction : transaction)
    (market_data : gmap string ticker) : run unit :=
  let portafolio_id := t_portafolioId transaction in
  let symbol := t_activeSymbol transaction in
  let tx_type := t_type transaction in
  let tx_price := default 0 (t_price transaction) in
  let msg_cost := msg_cost transaction in
  match market_lookup symbol market_data with
  | None => ret tt
  | Some ticker =>
      let slippage := slippage_of transaction ticker in
      if py_gt slippage 0 then
        ratio ← py_div slippage tx_price;
        if py_gt ratio SLIPPAGE_TOLERANCE then
          shown ← py_div slippage tx_price;
          let slippage_percent := shown * 100 in
          send_feedback_to_nestjs portafolio_id
            (MsgSlippage tx_type symbol slippage_percent) COST_ANALYSIS
        else ret tt
      else ret tt
  end.

(** ** analyze_behavior *)

Definition analyze_behavior (transaction : transaction)
    (market_data : gmap string ticker) : run unit :=
  let portafolio_id := t_portafolioId transaction in
  let symbol := t_activeSymbol transaction in
  let tx_type := t_type transaction in
  match market_lookup symbol market_data with
  | None => ret tt
  | Some ticker =>
      let price_change_24h := default 0 (k_price_percent_chg_24_h ticker) in
      if str_eq tx_type "BUY" then
        if py_gt price_change_24h 0 then
          send_feedback_to_nestjs portafolio_id
            (MsgFomo symbol price_change_24h) BEHAVIORAL_NUDGE
        else ret tt
      else if str_eq tx_type "SELL" then
        if py_lt price_change_24h 0 then
          send_feedback_to_nestjs portafolio_id
            (MsgPanic symbol price_change_24h) BEHAVIORAL_NUDGE
        else ret tt
      else ret tt
  end.

(** ** The handler *)

(** A response body: a JSON object of string fields. *)
Definition response := list (string * string).

Definition analyze_trade (data : request) : run response :=
  let portafolio := default empty_portafolio (r_portafolio data) in
  let transaction := default empty_transaction (r_transaction data) in
  let market_data := default ∅ (r_marketData data) in
  let portafolio_id := p_id portafolio in
  if negb (truthy portafolio_id) then
    ret [("error", "No portafolio ID provided")]
  else
    analyze_risk portafolio transaction market_data;;
    analyze_costs_and_slippage transaction market_data;;
    analyze_behavior transaction market_data;;
    ret [("status", "analysis_queued")].

(** ** Derived notions and sample inputs *)

(** Recognisers of the payloads of each rule. *)
Definition is_all_in_alert (n : payload) : bool :=
  match type n, msg n with
  | RISK_ALERT, MsgAllIn _ _ => true
  | _, _ => false
  end.

Definition is_concentration_alert (n : payload) : bool :=
  match type n, msg n with
  | RISK_ALERT, MsgConcentration _ _ => true
  | _, _ => false
  end.


Definition is_slippage_notification (n : payload) : bool :=
  match type n, msg n with
  | COST_ANALYSIS, MsgSlippage _ _ _ => true
  | _, _ => false
  end.

Definition all_in_alerts (r : run unit) : list payload :=
  List.filter is_all_in_alert (sent r).

Definition concentration_alerts (r : run unit) : list payload :=
  List.filter is_concentration_alert (sent r).



(** The quantities the all-in rule names. *)
Definition tx_cost (transaction : transaction) : Q :=
  default 0 (t_amount transaction) * default 0 (t_price transaction).

Definition cash_before_tx (portafolio : portafolio) (transaction : transaction) : Q :=
  default 0 (p_cash portafolio) + tx_cost transaction.

(** What one turn of the concentration loop tests and sends. *)
Definition exceeds (total_value : Q) (item : string * Q) : bool :=
  py_gt (snd item / total_value * 100) 60.

Definition alert_of (id : option string) (total_value : Q) (item : string * Q) : payload :=
  Payload id (MsgConcentration (snd item / total_value * 100) (fst item)) RISK_ALERT.


(** The scenario of the specification: portfolio [p1] with cash 10 and no
    holdings, a BUY of 10 units of [X] at the given price. *)
Definition scenario_portafolio : portafolio :=
  Portafolio (Some "p1"%string) (Some []) (Some 10).

Definition scenario_buy (price : Q) : transaction :=
  Transaction None (Some "X"%string) (Some "BUY"%string) (Some price) (Some 10).


(** The payload the slippage rule sends. *)
Definition slippage_payload (tx : transaction) (tk : ticker) : payload :=
  Payload (t_portafolioId tx)
    (MsgSlippage (t_type tx) (t_activeSymbol tx)
       (slippage_of tx tk / default 0 (t_price tx) * 100))
    COST_ANALYSIS.

(** The spec's scenario: a SELL at 95 against a best bid of 100. *)
Definition scenario_sell : transaction :=
  Transaction (Some "p1"%string) (Some "X"%string) (Some "SELL"%string) (Some 95) (Some 1).

Definition scenario_market : gmap string ticker :=
  {[ "X"%string := Ticker (Some 100) None (Some 100) None ]}.

(** A SELL with no price against a snapshot quoting a best bid of 5. *)
Definition priceless_sell : transaction :=
  Transaction (Some "p1"%string) (Some "X"%string) (Some "SELL"%string) None (Some 1).

Definition bid_market : gmap string ticker :=
  {[ "X"%string := Ticker None None (Some 5) None ]}.

(** The payloads of the two behavioural rules. *)
Definition fomo_payload (tx : transaction) (change : Q) : payload :=
  Payload (t_portafolioId tx) (MsgFomo (t_activeSymbol tx) change) BEHAVIORAL_NUDGE.

Definition panic_payload (tx : transaction) (change : Q) : payload :=
  Payload (t_portafolioId tx) (MsgPanic (t_activeSymbol tx) change) BEHAVIORAL_NUDGE.

Definition rising_market : gmap string ticker :=
  {[ "X"%string := Ticker (Some 100) None None (Some 3) ]}.


(** The three parts of a request, with the defaults of [data.get]. *)
Definition req_portafolio (data : request) : portafolio :=
  default empty_portafolio (r_portafolio data).
Definition req_transaction (data : request) : transaction :=
  default empty_transaction (r_transaction data).
Definition req_market (data : request) : gmap string ticker :=
  default ∅ (r_marketData data).

Definition error_response : response := [("error", "No portafolio ID provided")]%string.
Definition queued_response : response := [("status", "analysis_queued")]%string.

(** A request with an identifier whose transaction is [priceless_sell]. *)
Definition priceless_request : request :=
  Request (Some (Portafolio (Some "p1"%string) None None))
          (Some priceless_sell) (Some bid_market).

Definition scenario_request : request :=
  Request (Some scenario_portafolio) (Some scenario_sell) (Some scenario_market).

(** The symbol and value the loop records for one holding, if any. *)
Definition holding_value (md : gmap string ticker) (h : holding) : option (string * Q) :=
  s ← h_activeSymbol h;
  tk ← md !! s;
  Some (s, default 0 (h_quantity h) * default 0 (k_price tk)).

(** The valued holdings, in the order of the holdings. *)
Definition valued (md : gmap string ticker) (hs : list holding) : list (string * Q) :=
  omap (holding_value md) hs.

Definition sum_values (items : list (string * Q)) : Q :=
  fold_right (λ item acc, snd item + acc) 0 items.

Definition dict_of_items (items : list (string * Q)) (d : list (string * Q)) :=
  fold_left (λ d item, dict_set d (fst item) (snd item)) items d.

(** The symbols of a list, each at its first occurrence. *)
Fixpoint first_occurrences (l : list string) : list string :=
  match l with
  | [] => []
  | x :: l' => x :: filter (λ y, y ≠ x) (first_occurrences l')
  end.

(** The spec's scenario with a second, small holding. *)
Definition btc_portafolio : portafolio :=
  Portafolio (Some "p1"%string)
    (Some [Holding (Some "BTC"%string) (Some 1); Holding (Some "ETH"%string) (Some 1)])
    (Some 0).

Definition btc_market : gmap string ticker :=
  {[ "BTC"%string := Ticker (Some 70000) None None None;
     "ETH"%string := Ticker (Some 1000) None None None ]}.




(** ** The dispatcher in detail (source lines 21-36)

    [send_feedback_to_nestjs] with its [try]/[except], its output and its
    log.  The sink is a parameter: what [requests.post] followed by
    [raise_for_status] does with a payload. *)

(** The two classes the handlers tell apart: [RequestException] (which
    holds the [HTTPError] of [raise_for_status]) and any other
    [Exception]. *)
Inductive py_exception := RequestException | OtherException.

(** [requests.post] answers, with a status [raise_for_status] accepts or
    not, or raises. *)
Inductive post_result :=
| Responds (status_ok : bool)
| PostRaises (e : py_exception).

Inductive event :=
| Printed (p : payload)
| Posted (p : payload)
| LoggedInfo (portafolio_id : option string) (ty : feedback_type)
| LoggedError (handler : py_exception).

Record io (A : Type) := Io {
  trace : list event;
  result : py_exception + A
}.
Arguments Io {A} _ _.
Arguments trace {A} _.
Arguments result {A} _.

Definition io_ret {A} (a : A) : io A := Io [] (inr a).
Definition io_raise {A} (e : py_exception) : io A := Io [] (inl e).
Definition io_bind {A B} (f : A → io B) (m : io A) : io B :=
  match result m with
  | inl e => Io (trace m) (inl e)
  | inr a => let r := f a in Io (trace m ++ trace r) (result r)
  end.

#[export] Instance io_mret : MRet io := @io_ret.
#[export] Instance io_mbind : MBind io := @io_bind.

Definition emit (e : event) : io unit := Io [e] (inr tt).

(** [try: body except ... as e: handler e] *)
Definition try_except {A} (body : io A) (handler : py_exception → io A) : io A :=
  match result body with
  | inl e => let h := handler e in Io (trace body ++ trace h) (result h)
  | inr _ => body
  end.

Definition requests_post (sink : payload → post_result) (p : payload) : io bool :=
  Io [Posted p]
     match sink p with
     | Responds status_ok => inr status_ok
     | PostRaises e => inl e
     end.

Definition raise_for_status (status_ok : bool) : io unit :=
  if status_ok then io_ret tt else io_raise RequestException.

Definition send_feedback_io (sink : payload → post_result)
    (portafolio_id : option string) (message : message) (ty : feedback_type) : io unit :=
  try_except
    (let payload := Payload portafolio_id message ty in
     emit (Printed payload);;
     response ← requests_post sink payload;
     raise_for_status response;;
     emit (LoggedInfo portafolio_id ty))
    (λ e,
       match e with
       | RequestException => emit (LoggedError RequestException)
       | OtherException => emit (LoggedError OtherException)
       end).

(** The requests a trace holds, and its log lines. *)
Definition posted (t : list event) : list payload :=
  omap (λ e, match e with Posted p => Some p | _ => None end) t.

Definition is_log (e : event) : bool :=
  match e with
  | LoggedInfo _ _ | LoggedError _ => true
  | _ => false
  end.

(** ** Further notions *)


(** Recorded values that are all non-negative. *)
Definition nonneg_values (items : list (string * Q)) : Prop :=
  Forall (λ item, 0 <= snd item) items.

(** The holdings the valuation loop gives a value to. *)
Definition is_valued (md : gmap string ticker) (h : holding) : bool :=
  match holding_value md h with
  | Some _ => true
  | None => false
  end.

Definition with_holdings (p : portafolio) (hs : list holding) : portafolio :=
  Portafolio (p_id p) (Some hs) (p_cash p).

(** A BUY on a rising market whose transaction carries no identifier. *)
Definition anonymous_request : request :=
  Request (Some scenario_portafolio) (Some (scenario_buy 9)) (Some rising_market).


(** A portfolio with a holding the snapshot does not know. *)
Definition mixed_portafolio : portafolio :=
  Portafolio (Some "p1"%string)
    (Some [Holding (Some "BTC"%string) (Some 1); Holding (Some "DOGE"%string) (Some 5);
           Holding None (Some 2); Holding (Some "ETH"%string) (Some 1)])
    (Some 0).


(** A sink that answers with an error status. *)
Definition failing_sink (p : payload) : post_result := Responds false.

(** * Properties *)

(** ** Comparisons and division *)

Lemma py_gt_true x y : py_gt x y = true ↔ y < x.
Proof.
  unfold py_gt. rewrite negb_true_iff, <- not_true_iff_false, Qle_bool_iff.
  split; [apply Qnot_le_lt | apply Qlt_not_le].
Qed.


Lemma py_lt_gt x y : py_lt x y = py_gt y x.
Proof. reflexivity. Qed.

Lemma py_div_defined x y : ¬ y == 0 → py_div x y = ret (x / y).
Proof.
  intros Hy. unfold py_div.
  destruct (Qeq_bool y 0) eqn:E; [|reflexivity].
  apply Qeq_bool_iff in E. contradiction.
Qed.



(** ** The monad *)

Lemma bind_ret {A B} (a : A) (f : A → run B) : mbind f (ret a) = f a.
Proof. unfold mbind, run_bind, bind. simpl. now destruct (f a). Qed.

Lemma bind_raised {A B} (m : run A) (f : A → run B) (e : exn) :
  outcome m = inl e → mbind f m = Run (sent m) (inl e).
Proof. intros H. unfold mbind, run_bind, bind. now rewrite H. Qed.

Lemma bind_unit {B} (m : run unit) (k : run B) :
  outcome m = inr tt → (m;; k) = Run (sent m ++ sent k) (outcome k).
Proof. intros H. unfold mbind, run_bind, bind. now rewrite H. Qed.

(** ** The all-in rule *)

(** The block sends one payload under its three conditions and nothing
    otherwise; it never raises, the division being guarded. *)
Lemma all_in_check_eq id cash tx :
  let cost := tx_cost tx in
  let before := cash + cost in
  all_in_check id cash tx =
    if str_eq (t_type tx) "BUY" && py_gt before 0 && py_gt (cost / before) (9 # 10)
    then send_feedback_to_nestjs id
           (MsgAllIn (cost / before * 100) (t_activeSymbol tx)) RISK_ALERT
    else ret tt.
Proof.
  intros cost before. unfold all_in_check. fold (tx_cost tx). fold cost. fold before.
  destruct (str_eq (t_type tx) "BUY"); [|reflexivity].
  destruct (py_gt before 0) eqn:Hpos; [|reflexivity].
  apply py_gt_true in Hpos.
  assert (Hne : ¬ before == 0) by lra.
  rewrite (py_div_defined _ _ Hne), bind_ret.
  destruct (py_gt (cost / before) (9 # 10)); [|reflexivity].
  now rewrite bind_ret.
Qed.

Lemma all_in_check_outcome id cash tx : outcome (all_in_check id cash tx) = inr tt.
Proof.
  rewrite all_in_check_eq. simpl.
  now destruct (_ && _).
Qed.

(** ** The concentration loop *)

Lemma concentration_body_eq id total item :
  ¬ total == 0 →
  concentration_body id total item =
    if exceeds total item then Run [alert_of id total item] (inr tt) else ret tt.
Proof.
  intros Hne. unfold concentration_body.
  now rewrite (py_div_defined _ _ Hne), bind_ret.
Qed.

Lemma for_each_concentration id total av :
  ¬ total == 0 →
  for_each av (concentration_body id total) =
    Run (map (alert_of id total) (List.filter (exceeds total) av)) (inr tt).
Proof.
  intros Hne. induction av as [|item av IH]; [reflexivity|].
  simpl. rewrite IH, (concentration_body_eq _ _ _ Hne).
  now destruct (exceeds total item).
Qed.

Lemma concentration_check_zero id total av :
  total == 0 → concentration_check id total av = ret tt.
Proof.
  intros Hz. unfold concentration_check.
  apply Qeq_bool_iff in Hz. now rewrite Hz.
Qed.

Lemma concentration_check_nonzero id total av :
  ¬ total == 0 →
  concentration_check id total av =
    Run (map (alert_of id total) (List.filter (exceeds total) av)) (inr tt).
Proof.
  intros Hne. unfold concentration_check.
  destruct (Qeq_bool total 0) eqn:E.
  - apply Qeq_bool_iff in E. contradiction.
  - now apply for_each_concentration.
Qed.

Lemma concentration_check_outcome id total av :
  outcome (concentration_check id total av) = inr tt.
Proof.
  destruct (Qeq_dec total 0) as [Hz|Hne].
  - now rewrite concentration_check_zero.
  - now rewrite concentration_check_nonzero.
Qed.

(** Every payload of the loop is a concentration alert, none an all-in
    alert. *)
Lemma concentration_check_kinds id total av :
  List.filter is_all_in_alert (sent (concentration_check id total av)) = [] ∧
  List.filter is_concentration_alert (sent (concentration_check id total av)) =
    sent (concentration_check id total av).
Proof.
  destruct (Qeq_dec total 0) as [Hz|Hne].
  - now rewrite concentration_check_zero.
  - rewrite concentration_check_nonzero by assumption. simpl.
    induction (List.filter (exceeds total) av) as [|item l [IH1 IH2]]; [done|].
    simpl. split; [exact IH1 | now rewrite IH2].
Qed.

(** ** analyze_risk as a whole *)

Lemma analyze_risk_eq p tx md :
  let id := p_id p in
  let cash := default 0 (p_cash p) in
  let v := valuation md cash (default [] (p_holdings p)) in
  analyze_risk p tx md =
    Run (sent (all_in_check id cash tx) ++ sent (concentration_check id (fst v) (snd v)))
        (inr tt).
Proof.
  intros id cash v. unfold analyze_risk. fold id. fold cash. fold v.
  rewrite bind_unit by apply all_in_check_outcome.
  destruct v as [total av]. simpl.
  now rewrite concentration_check_outcome.
Qed.

(** The risk evaluator returns on every input of the model. *)
Lemma analyze_risk_outcome p tx md : outcome (analyze_risk p tx md) = inr tt.
Proof. now rewrite analyze_risk_eq. Qed.

Lemma all_in_check_kinds id cash tx :
  List.filter is_concentration_alert (sent (all_in_check id cash tx)) = [] ∧
  List.filter is_all_in_alert (sent (all_in_check id cash tx)) =
    sent (all_in_check id cash tx).
Proof.
  rewrite all_in_check_eq. simpl. now destruct (_ && _).
Qed.

Lemma all_in_alerts_analyze_risk p tx md :
  all_in_alerts (analyze_risk p tx md) =
    sent (all_in_check (p_id p) (default 0 (p_cash p)) tx).
Proof.
  unfold all_in_alerts. rewrite analyze_risk_eq. simpl.
  rewrite List.filter_app.
  rewrite (proj1 (concentration_check_kinds _ _ _)).
  rewrite (proj2 (all_in_check_kinds _ _ _)).
  apply app_nil_r.
Qed.

Lemma concentration_alerts_analyze_risk p tx md :
  let v := valuation md (default 0 (p_cash p)) (default [] (p_holdings p)) in
  concentration_alerts (analyze_risk p tx md) =
    sent (concentration_check (p_id p) (fst v) (snd v)).
Proof.
  intros v. unfold concentration_alerts. rewrite analyze_risk_eq. simpl.
  rewrite List.filter_app.
  rewrite (proj1 (all_in_check_kinds _ _ _)).
  now rewrite (proj2 (concentration_check_kinds _ _ _)).
Qed.






(** ** The cost and slippage evaluator *)

Lemma analyze_costs_and_slippage_eq tx md tk :
  market_lookup (t_activeSymbol tx) md = Some tk →
  let s := slippage_of tx tk in
  let price := default 0 (t_price tx) in
  analyze_costs_and_slippage tx md =
    if py_gt s 0 then
      if Qeq_bool price 0 then raise ZeroDivisionError
      else if py_gt (s / price) SLIPPAGE_TOLERANCE
           then Run [slippage_payload tx tk] (inr tt)
           else ret tt
    else ret tt.
Proof.
  intros Hlook s price. unfold analyze_costs_and_slippage. rewrite Hlook.
  fold s. fold price.
  destruct (py_gt s 0); [|reflexivity].
  unfold py_div. destruct (Qeq_bool price 0); [reflexivity|].
  rewrite bind_ret. destruct (py_gt (s / price) SLIPPAGE_TOLERANCE); [|reflexivity].
  now rewrite bind_ret.
Qed.

Lemma analyze_costs_and_slippage_absent tx md :
  market_lookup (t_activeSymbol tx) md = None →
  analyze_costs_and_slippage tx md = ret tt.
Proof.
  intros Hlook. unfold analyze_costs_and_slippage. now rewrite Hlook.
Qed.







(** C3. The claim that no exception escapes the cost/slippage evaluator
    fails: a SELL whose price is missing (so 0) against a best bid of 5 has
    slippage 5, and the quotient slippage / price raises
    ZeroDivisionError before anything is sent. *)
Theorem costs_and_slippage_raises_on_missing_price :
  analyze_costs_and_slippage priceless_sell bid_market = raise ZeroDivisionError.
Proof. reflexivity. Qed.

(** ** The behaviour evaluator *)

Lemma analyze_behavior_outcome tx md : outcome (analyze_behavior tx md) = inr tt.
Proof.
  unfold analyze_behavior.
  destruct (market_lookup _ _); [|reflexivity].
  destruct (str_eq _ "BUY"); [now destruct (py_gt _ _)|].
  destruct (str_eq _ "SELL"); [now destruct (py_lt _ _)|reflexivity].
Qed.

Lemma analyze_behavior_sent tx md tk :
  market_lookup (t_activeSymbol tx) md = Some tk →
  let change := default 0 (k_price_percent_chg_24_h tk) in
  sent (analyze_behavior tx md) =
    if str_eq (t_type tx) "BUY" then
      if py_gt change 0 then [fomo_payload tx change] else []
    else if str_eq (t_type tx) "SELL" then
      if py_gt 0 change then [panic_payload tx change] else []
    else [].
Proof.
  intros Hlook change. unfold analyze_behavior. rewrite Hlook. fold change.
  rewrite py_lt_gt.
  destruct (str_eq _ "BUY"); [now destruct (py_gt _ _)|].
  destruct (str_eq _ "SELL"); [now destruct (py_gt _ _)|reflexivity].
Qed.



(** ** The handler *)

(** Without an identifier the handler answers at once: nothing is
    evaluated, nothing is sent. *)
Lemma analyze_trade_missing_id data :
  truthy (p_id (req_portafolio data)) = false →
  analyze_trade data = ret error_response.
Proof.
  intros Hid. unfold analyze_trade. fold (req_portafolio data).
  now rewrite Hid.
Qed.

Lemma analyze_trade_with_id data :
  truthy (p_id (req_portafolio data)) = true →
  let risk := analyze_risk (req_portafolio data) (req_transaction data) (req_market data) in
  let costs := analyze_costs_and_slippage (req_transaction data) (req_market data) in
  let behavior := analyze_behavior (req_transaction data) (req_market data) in
  analyze_trade data =
    match outcome costs with
    | inl e => Run (sent risk ++ sent costs) (inl e)
    | inr _ => Run (sent risk ++ sent costs ++ sent behavior) (inr queued_response)
    end.
Proof.
  intros Hid risk costs behavior. unfold analyze_trade.
  fold (req_portafolio data) (req_transaction data) (req_market data).
  rewrite Hid. simpl. fold risk costs behavior.
  rewrite bind_unit by apply analyze_risk_outcome.
  destruct (outcome costs) as [e|[]] eqn:Hc.
  - now rewrite (bind_raised costs _ e Hc).
  - rewrite (bind_unit costs) by exact Hc.
    rewrite (bind_unit behavior) by apply analyze_behavior_outcome.
    simpl. now rewrite app_nil_r.
Qed.


(** C7. The claim that every request with a non-empty identifier runs the
    three evaluators and is answered [analysis_queued] fails on
    [priceless_request]: the cost evaluator raises ZeroDivisionError, the
    behaviour evaluator is not reached and the handler returns no body. *)
Theorem analyze_trade_raises_on_missing_price :
  analyze_trade priceless_request = raise ZeroDivisionError.
Proof. reflexivity. Qed.

(** ** Which rule a payload comes from *)

Lemma analyze_risk_types p tx md :
  Forall (λ n, type n = RISK_ALERT ∧ ∀ sym c, msg n ≠ MsgCost sym c)
         (sent (analyze_risk p tx md)).
Proof.
  rewrite analyze_risk_eq. simpl. apply Forall_app. split.
  - rewrite all_in_check_eq. destruct (_ && _); simpl; [|constructor].
    now repeat constructor.
  - destruct (Qeq_dec (fst (valuation md (default 0 (p_cash p)) (default [] (p_holdings p)))) 0)
      as [Hz|Hne].
    + rewrite concentration_check_zero by assumption. constructor.
    + rewrite concentration_check_nonzero by assumption. simpl.
      apply Forall_forall. intros n Hn. apply list_elem_of_fmap in Hn.
      destruct Hn as (item & -> & _). now split.
Qed.

Lemma analyze_costs_and_slippage_types tx md :
  Forall (λ n, is_slippage_notification n = true)
         (sent (analyze_costs_and_slippage tx md)).
Proof.
  destruct (market_lookup (t_activeSymbol tx) md) as [tk|] eqn:Hlook.
  - rewrite (analyze_costs_and_slippage_eq _ _ _ Hlook).
    destruct (py_gt _ 0); [|constructor].
    destruct (Qeq_bool _ 0); [constructor|].
    destruct (py_gt _ SLIPPAGE_TOLERANCE); [|constructor].
    now repeat constructor.
  - rewrite (analyze_costs_and_slippage_absent _ _ Hlook). constructor.
Qed.

Lemma analyze_behavior_types tx md :
  Forall (λ n, type n = BEHAVIORAL_NUDGE ∧ ∀ sym c, msg n ≠ MsgCost sym c)
         (sent (analyze_behavior tx md)).
Proof.
  destruct (market_lookup (t_activeSymbol tx) md) as [tk|] eqn:Hlook.
  - rewrite (analyze_behavior_sent _ _ _ Hlook).
    destruct (str_eq _ "BUY"); [destruct (py_gt _ _); now repeat constructor|].
    destruct (str_eq _ "SELL"); [destruct (py_gt _ _); now repeat constructor|].
    constructor.
  - unfold analyze_behavior. rewrite Hlook. constructor.
Qed.

Lemma is_slippage_notification_spec n :
  is_slippage_notification n = true →
  type n = COST_ANALYSIS ∧ ∃ ty sym pct, msg n = MsgSlippage ty sym pct.
Proof.
  unfold is_slippage_notification.
  destruct (type n); try discriminate.
  destruct (msg n); try discriminate. eauto.
Qed.

(** Every payload of the handler is one of one evaluator. *)
Lemma analyze_trade_sent data n :
  n ∈ sent (analyze_trade data) →
  n ∈ sent (analyze_risk (req_portafolio data) (req_transaction data) (req_market data)) ∨
  n ∈ sent (analyze_costs_and_slippage (req_transaction data) (req_market data)) ∨
  n ∈ sent (analyze_behavior (req_transaction data) (req_market data)).
Proof.
  destruct (truthy (p_id (req_portafolio data))) eqn:Hid.
  - rewrite (analyze_trade_with_id _ Hid).
    destruct (outcome _); simpl; rewrite ?elem_of_app; tauto.
  - rewrite (analyze_trade_missing_id _ Hid). simpl. intros H.
    now apply not_elem_of_nil in H.
Qed.

(** C8. The commission, amount times price times 5/1000, is a value of
    every call, and no payload carries it: whatever the request, a payload
    of type COST_ANALYSIS sent by the handler is the slippage payload of
    [analyze_costs_and_slippage], and no payload holds the commission
    message. *)
Theorem cost_analysis_only_from_slippage (data : request) (n : payload) :
  let tx := req_transaction data in
  n ∈ sent (analyze_trade data) →
  commission_paid tx == default 0 (t_amount tx) * default 0 (t_price tx) * (5 # 1000) ∧
  msg n ≠ msg_cost tx ∧
  (∀ sym c, msg n ≠ MsgCost sym c) ∧
  (type n = COST_ANALYSIS →
     n ∈ sent (analyze_costs_and_slippage tx (req_market data)) ∧
     ∃ ty sym pct, msg n = MsgSlippage ty sym pct).
Proof.
  intros tx Hn.
  split; [reflexivity|].
  assert (Hkind : (∀ sym c, msg n ≠ MsgCost sym c) ∧
                  (type n = COST_ANALYSIS →
                   n ∈ sent (analyze_costs_and_slippage tx (req_market data)) ∧
                   ∃ ty sym pct, msg n = MsgSlippage ty sym pct)).
  { apply analyze_trade_sent in Hn. destruct Hn as [Hr|[Hc|Hb]].
    - pose proof (analyze_risk_types (req_portafolio data) tx (req_market data)) as HF.
      rewrite Forall_forall in HF. destruct (HF _ Hr) as [Hty Hmsg].
      split; [exact Hmsg | congruence].
    - pose proof (analyze_costs_and_slippage_types tx (req_market data)) as HF.
      rewrite Forall_forall in HF.
      destruct (is_slippage_notification_spec _ (HF _ Hc)) as (Hty & ty & sym & pct & Hmsg).
      split; [intros; congruence | eauto 6].
    - pose proof (analyze_behavior_types tx (req_market data)) as HF.
      rewrite Forall_forall in HF. destruct (HF _ Hb) as [Hty Hmsg].
      split; [exact Hmsg | congruence]. }
  destruct Hkind as [Hno Hcost].
  split; [apply Hno|]. split; assumption.
Qed.

Lemma cost_analysis_only_from_slippage_witness :
  ∃ ty sym pct,
    msg (slippage_payload scenario_sell (Ticker (Some 100) None (Some 100) None)) =
      MsgSlippage ty sym pct.
Proof.
  apply (cost_analysis_only_from_slippage scenario_request
           (slippage_payload scenario_sell (Ticker (Some 100) None (Some 100) None))).
  - vm_compute. apply list_elem_of_here.
  - reflexivity.
Defined.

(** ** The valuation loop *)

Lemma valuation_step_eq md acc h :
  valuation_step md acc h =
    match holding_value md h with
    | Some item => (fst acc + snd item, dict_set (snd acc) (fst item) (snd item))
    | None => acc
    end.
Proof.
  unfold valuation_step, holding_value.
  destruct (h_activeSymbol h) as [s|]; [|reflexivity]. simpl.
  now destruct (md !! s).
Qed.

Lemma valuation_from md hs total d :
  fold_left (valuation_step md) hs (total, d) =
    (fold_left (λ t item, t + snd item) (valued md hs) total,
     dict_of_items (valued md hs) d).
Proof.
  revert total d. induction hs as [|h hs IH]; intros total d; [reflexivity|].
  simpl. rewrite valuation_step_eq. unfold valued. simpl.
  destruct (holding_value md h) as [item|]; simpl; apply IH.
Qed.

Lemma fold_left_sum items total :
  fold_left (λ t item, t + snd item) items total == total + sum_values items.
Proof.
  revert total. induction items as [|item items IH]; intros total; simpl.
  - lra.
  - rewrite IH. lra.
Qed.


(** The total is the cash plus the value of every valued holding. *)
Lemma valuation_total md cash hs :
  fst (valuation md cash hs) == cash + sum_values (valued md hs).
Proof.
  unfold valuation. rewrite valuation_from. simpl. apply fold_left_sum.
Qed.

Lemma valuation_dict md cash hs :
  snd (valuation md cash hs) = dict_of_items (valued md hs) [].
Proof.
  unfold valuation. now rewrite valuation_from.
Qed.

(** *** The insertion-ordered dict *)



Lemma dict_set_keys d k v :
  map fst (dict_set d k v) =
    if decide (k ∈ map fst d) then map fst d else map fst d ++ [k].
Proof.
  induction d as [|[k' v'] d IH]; simpl.
  - reflexivity.
  - destruct (String.eqb k' k) eqn:E; simpl.
    + apply String.eqb_eq in E. subst k'.
      rewrite decide_True; [reflexivity | apply list_elem_of_here].
    + apply String.eqb_neq in E. rewrite IH.
      destruct (decide (k ∈ map fst d)) as [Hin|Hout].
      * rewrite decide_True; [reflexivity | now apply list_elem_of_further].
      * rewrite decide_False; [reflexivity|].
        intros Hin. apply elem_of_cons in Hin. destruct Hin; congruence.
Qed.





Lemma filter_not_elem_of_nil (l : list string) :
  filter (λ k, k ∉ @nil string) l = l.
Proof.
  induction l as [|x l IH]; [reflexivity|].
  rewrite filter_cons_True by apply not_elem_of_nil. now rewrite IH.
Qed.

(** The keys are the symbols written, each at its first occurrence. *)
Lemma dict_of_items_keys items d :
  map fst (dict_of_items items d) =
    map fst d ++ filter (λ k, k ∉ map fst d) (first_occurrences (map fst items)).
Proof.
  revert d. induction items as [|[k v] items IH]; intros d; simpl.
  - now rewrite app_nil_r.
  - rewrite IH, dict_set_keys.
    destruct (decide (k ∈ map fst d)) as [Hin|Hout].
    + rewrite filter_cons_False by (intros Hk; exact (Hk Hin)).
      rewrite list_filter_filter. f_equal.
      apply list_filter_iff. intros y. split; [|tauto].
      intros Hy. split; [exact Hy | congruence].
    + rewrite filter_cons_True by assumption.
      rewrite <- app_assoc. simpl. do 2 f_equal.
      rewrite list_filter_filter. apply list_filter_iff. intros y.
      rewrite not_elem_of_app, list_elem_of_singleton. tauto.
Qed.

Lemma valuation_keys md cash hs :
  map fst (snd (valuation md cash hs)) = first_occurrences (map fst (valued md hs)).
Proof.
  rewrite valuation_dict, dict_of_items_keys. simpl.
  apply filter_not_elem_of_nil.
Qed.



(** ** Concentration alerts, symbol by symbol *)







(** ** The guard of the concentration loop *)




(** ** Holdings that repeat a symbol *)


Lemma valued_cons md h hs item :
  holding_value md h = Some item → valued md (h :: hs) = item :: valued md hs.
Proof. intros H. unfold valued. simpl. now rewrite H. Qed.






(** ** The scenarios of the specification, evaluated *)

(** One holding of 1 BTC priced 70000 and no cash: one alert, at 100%. *)
Example scenario_btc_alone :
  let p := Portafolio (Some "p1"%string) (Some [Holding (Some "BTC"%string) (Some 1)]) (Some 0) in
  sent (analyze_risk p scenario_sell btc_market) =
    [alert_of (Some "p1"%string) (0 + 1 * 70000) ("BTC"%string, 1 * 70000)] ∧
  1 * 70000 / (0 + 1 * 70000) * 100 == 100.
Proof. split; reflexivity. Qed.

(** A SELL at 95 against a best bid of 100: slippage 5, that is 100/19
    percent of the price (5.26 to two decimals). *)
Example scenario_sell_slippage :
  slippage_of scenario_sell (Ticker (Some 100) None (Some 100) None) == 5 ∧
  slippage_of scenario_sell (Ticker (Some 100) None (Some 100) None) / 95 * 100 == 100 # 19.
Proof. split; reflexivity. Qed.

(** The request of the scenario goes through the three evaluators. *)
Example scenario_request_queued :
  analyze_trade scenario_request =
    Run [slippage_payload scenario_sell (Ticker (Some 100) None (Some 100) None)]
        (inr queued_response).
Proof. reflexivity. Qed.

(** No identifier, or an empty one: the error body and nothing sent. *)
Example scenario_no_identifier :
  analyze_trade (Request None (Some priceless_sell) (Some bid_market)) = ret error_response ∧
  analyze_trade (Request (Some (Portafolio (Some ""%string) None None))
                         (Some priceless_sell) (Some bid_market)) = ret error_response.
Proof. split; reflexivity. Qed.

(** * Further properties of the evaluators *)

(** ** Where exceptions can and cannot arise *)






(** ** The handler's answers and the order of the payloads *)

(** X4. The handler answers with the error body exactly when the
    identifier is missing or empty, and then sends nothing. *)
Theorem handler_error_iff (data : request) :
  analyze_trade data = ret error_response ↔
  truthy (p_id (req_portafolio data)) = false.
Proof.
  split.
  - intros Heq. destruct (truthy (p_id (req_portafolio data))) eqn:Hid; [|reflexivity].
    rewrite (analyze_trade_with_id _ Hid) in Heq.
    destruct (outcome _); discriminate Heq.
  - apply analyze_trade_missing_id.
Qed.



(** X6. Within [analyze_risk] the all-in alert, if any, comes first and
    the concentration alerts follow; there is nothing else. *)
Theorem risk_alerts_in_order (p : portafolio) (tx : transaction)
    (md : gmap string ticker) :
  sent (analyze_risk p tx md) =
    all_in_alerts (analyze_risk p tx md) ++ concentration_alerts (analyze_risk p tx md).
Proof.
  rewrite all_in_alerts_analyze_risk, concentration_alerts_analyze_risk.
  now rewrite analyze_risk_eq.
Qed.

(** ** What the payloads carry *)

Lemma analyze_risk_ids p tx md :
  Forall (λ n, portafolioId n = p_id p) (sent (analyze_risk p tx md)).
Proof.
  rewrite analyze_risk_eq. simpl. apply Forall_app. split.
  - rewrite all_in_check_eq. destruct (_ && _); simpl; now repeat constructor.
  - destruct (Qeq_dec (fst (valuation md (default 0 (p_cash p)) (default [] (p_holdings p)))) 0)
      as [Hz|Hne].
    + rewrite concentration_check_zero by assumption. constructor.
    + rewrite concentration_check_nonzero by assumption. simpl.
      apply Forall_forall. intros n Hn. apply list_elem_of_fmap in Hn.
      now destruct Hn as (item & -> & _).
Qed.

Lemma analyze_costs_and_slippage_ids tx md :
  Forall (λ n, portafolioId n = t_portafolioId tx) (sent (analyze_costs_and_slippage tx md)).
Proof.
  destruct (market_lookup (t_activeSymbol tx) md) as [tk|] eqn:Hlook.
  - rewrite (analyze_costs_and_slippage_eq _ _ _ Hlook).
    destruct (py_gt _ 0); [|constructor].
    destruct (Qeq_bool _ 0); [constructor|].
    destruct (py_gt _ SLIPPAGE_TOLERANCE); now repeat constructor.
  - rewrite (analyze_costs_and_slippage_absent _ _ Hlook). constructor.
Qed.

Lemma analyze_behavior_ids tx md :
  Forall (λ n, portafolioId n = t_portafolioId tx) (sent (analyze_behavior tx md)).
Proof.
  destruct (market_lookup (t_activeSymbol tx) md) as [tk|] eqn:Hlook.
  - rewrite (analyze_behavior_sent _ _ _ Hlook).
    destruct (str_eq _ "BUY"); [destruct (py_gt _ _); now repeat constructor|].
    destruct (str_eq _ "SELL"); [destruct (py_gt _ _); now repeat constructor|].
    constructor.
  - unfold analyze_behavior. rewrite Hlook. constructor.
Qed.

(** X7. The identifier of a payload depends on its rule: a RISK_ALERT
    carries [portafolio.id], a COST_ANALYSIS or BEHAVIORAL_NUDGE carries
    [transaction.portafolioId], whether or not the two agree. *)
Theorem payload_identifier_by_rule (data : request) (n : payload) :
  n ∈ sent (analyze_trade data) →
  match type n with
  | RISK_ALERT => portafolioId n = p_id (req_portafolio data)
  | COST_ANALYSIS | BEHAVIORAL_NUDGE => portafolioId n = t_portafolioId (req_transaction data)
  end.
Proof.
  intros Hn. apply analyze_trade_sent in Hn. destruct Hn as [Hr|[Hc|Hb]].
  - pose proof (analyze_risk_types (req_portafolio data) (req_transaction data)
                  (req_market data)) as HT.
    pose proof (analyze_risk_ids (req_portafolio data) (req_transaction data)
                  (req_market data)) as HI.
    rewrite Forall_forall in HT, HI.
    destruct (HT _ Hr) as [-> _]. now apply HI.
  - pose proof (analyze_costs_and_slippage_types (req_transaction data) (req_market data)) as HT.
    pose proof (analyze_costs_and_slippage_ids (req_transaction data) (req_market data)) as HI.
    rewrite Forall_forall in HT, HI.
    destruct (is_slippage_notification_spec _ (HT _ Hc)) as [-> _]. now apply HI.
  - pose proof (analyze_behavior_types (req_transaction data) (req_market data)) as HT.
    pose proof (analyze_behavior_ids (req_transaction data) (req_market data)) as HI.
    rewrite Forall_forall in HT, HI.
    destruct (HT _ Hb) as [-> _]. now apply HI.
Qed.

(** A request with identifier [p1] whose nudge carries no identifier. *)
Lemma payload_identifier_by_rule_witness :
  portafolioId (fomo_payload (scenario_buy 9) 3) = None.
Proof.
  apply (payload_identifier_by_rule anonymous_request (fomo_payload (scenario_buy 9) 3)).
  vm_compute. apply list_elem_of_here.
Defined.






(** ** How many payloads *)

Lemma first_occurrences_length l : (length (first_occurrences l) ≤ length l)%nat.
Proof.
  induction l as [|x l IH]; simpl; [lia|].
  pose proof (length_filter (λ y, y ≠ x) (first_occurrences l)). lia.
Qed.

Lemma valued_length md hs : (length (valued md hs) ≤ length hs)%nat.
Proof.
  induction hs as [|h hs IH]; simpl; [lia|].
  unfold valued in *. simpl. destruct (holding_value md h); simpl; lia.
Qed.

Lemma valuation_dict_length md cash hs :
  (length (snd (valuation md cash hs)) ≤ length hs)%nat.
Proof.
  rewrite <- (length_map fst), valuation_keys.
  pose proof (first_occurrences_length (map fst (valued md hs))) as H.
  rewrite length_map in H. pose proof (valued_length md hs). lia.
Qed.

Lemma List_filter_length {A} (f : A → bool) l : (length (List.filter f l) ≤ length l)%nat.
Proof.
  induction l as [|x l IH]; simpl; [lia|]. destruct (f x); simpl; lia.
Qed.

Lemma analyze_risk_length p tx md :
  (length (sent (analyze_risk p tx md)) ≤ 1 + length (default [] (p_holdings p)))%nat.
Proof.
  rewrite analyze_risk_eq. simpl. rewrite length_app.
  assert (H1 : (length (sent (all_in_check (p_id p) (default 0%Q (p_cash p)) tx)) ≤ 1)%nat).
  { rewrite all_in_check_eq. destruct (_ && _); simpl; lia. }
  set (v := valuation md (default 0 (p_cash p)) (default [] (p_holdings p))).
  assert (H2 : (length (sent (concentration_check (p_id p) (fst v) (snd v)))
                ≤ length (default [] (p_holdings p)))%nat).
  { destruct (Qeq_dec (fst v) 0) as [Hz|Hne].
    - rewrite concentration_check_zero by assumption. simpl. lia.
    - rewrite concentration_check_nonzero by assumption. simpl.
      rewrite length_map.
      pose proof (List_filter_length (exceeds (fst v)) (snd v)).
      pose proof (valuation_dict_length md (default 0 (p_cash p)) (default [] (p_holdings p)))
        as Hlen.
      fold v in Hlen. lia. }
  lia.
Qed.

Lemma analyze_costs_and_slippage_length tx md :
  (length (sent (analyze_costs_and_slippage tx md)) ≤ 1)%nat.
Proof.
  destruct (market_lookup (t_activeSymbol tx) md) as [tk|] eqn:Hlook.
  - rewrite (analyze_costs_and_slippage_eq _ _ _ Hlook).
    destruct (py_gt _ 0); [|simpl; lia].
    destruct (Qeq_bool _ 0); [simpl; lia|].
    destruct (py_gt _ SLIPPAGE_TOLERANCE); simpl; lia.
  - rewrite (analyze_costs_and_slippage_absent _ _ Hlook). simpl. lia.
Qed.

Lemma analyze_behavior_length tx md :
  (length (sent (analyze_behavior tx md)) ≤ 1)%nat.
Proof.
  destruct (market_lookup (t_activeSymbol tx) md) as [tk|] eqn:Hlook.
  - rewrite (analyze_behavior_sent _ _ _ Hlook).
    destruct (str_eq _ "BUY"); [destruct (py_gt _ _); simpl; lia|].
    destruct (str_eq _ "SELL"); [destruct (py_gt _ _); simpl; lia|simpl; lia].
  - unfold analyze_behavior. rewrite Hlook. simpl. lia.
Qed.

(** X9. One request leads to at most three payloads plus one per
    holding: at most one all-in alert, one concentration alert per
    holding, one slippage notification and one nudge. *)
Theorem handler_payload_bound (data : request) :
  (length (sent (analyze_trade data))
   ≤ 3 + length (default [] (p_holdings (req_portafolio data))))%nat.
Proof.
  pose proof (analyze_risk_length (req_portafolio data) (req_transaction data)
                (req_market data)) as Hr.
  pose proof (analyze_costs_and_slippage_length (req_transaction data) (req_market data)) as Hc.
  pose proof (analyze_behavior_length (req_transaction data) (req_market data)) as Hb.
  destruct (truthy (p_id (req_portafolio data))) eqn:Hid.
  - rewrite (analyze_trade_with_id _ Hid).
    destruct (outcome _); simpl; rewrite ?length_app; lia.
  - rewrite (analyze_trade_missing_id _ Hid). simpl. lia.
Qed.

(** ** At most one concentration alert on a long-only portfolio *)

Lemma dict_set_nonneg d k v :
  nonneg_values d → 0 <= v →
  nonneg_values (dict_set d k v) ∧ sum_values (dict_set d k v) <= sum_values d + v.
Proof.
  intros Hd Hv. induction d as [|[k' v'] d IH]; simpl.
  - split; [now repeat constructor | lra].
  - apply Forall_cons in Hd. destruct Hd as [Hv' Hd]. simpl in Hv'.
    destruct (IH Hd) as [IH1 IH2].
    destruct (String.eqb k' k); simpl.
    + split; [now constructor | lra].
    + split; [now constructor | lra].
Qed.

Lemma dict_of_items_nonneg items d :
  nonneg_values items → nonneg_values d →
  nonneg_values (dict_of_items items d) ∧
  sum_values (dict_of_items items d) <= sum_values d + sum_values items.
Proof.
  revert d. induction items as [|[k v] items IH]; intros d Hitems Hd; simpl.
  - split; [assumption | lra].
  - apply Forall_cons in Hitems. destruct Hitems as [Hv Hitems]. simpl in Hv.
    destruct (dict_set_nonneg d k v Hd Hv) as [Hd' Hsum].
    destruct (IH _ Hitems Hd') as [IH1 IH2].
    split; [assumption | lra].
Qed.

Lemma exceeds_share total item :
  0 < total → exceeds total item = true → (6 # 10) * total < snd item.
Proof.
  intros Hpos Hex. apply py_gt_true in Hex.
  assert (Hv : snd item == snd item / total * total) by (field; lra).
  set (r := snd item / total) in *.
  assert (Hr : 0 < (r - (6 # 10)) * total) by (apply Qmult_lt_0_compat; lra).
  lra.
Qed.

Lemma no_exceeding_share total items :
  0 < total → nonneg_values items → sum_values items <= (6 # 10) * total →
  List.filter (exceeds total) items = [].
Proof.
  intros Hpos. induction items as [|item items IH]; intros Hnn Hsum; [reflexivity|].
  apply Forall_cons in Hnn. destruct Hnn as [Hv Hnn]. simpl in Hsum.
  assert (Hrest : 0 <= sum_values items).
  { clear -Hnn. induction Hnn; simpl; lra. }
  simpl. destruct (exceeds total item) eqn:Hex.
  - apply (exceeds_share _ _ Hpos) in Hex. lra.
  - apply IH; [assumption | lra].
Qed.

Lemma one_exceeding_share total items :
  0 < total → nonneg_values items → sum_values items <= total →
  (length (List.filter (exceeds total) items) ≤ 1)%nat.
Proof.
  intros Hpos. induction items as [|item items IH]; intros Hnn Hsum; [simpl; lia|].
  apply Forall_cons in Hnn. destruct Hnn as [Hv Hnn]. simpl in Hsum.
  simpl. destruct (exceeds total item) eqn:Hex.
  - apply (exceeds_share _ _ Hpos) in Hex.
    rewrite no_exceeding_share; [simpl; lia | assumption | assumption | lra].
  - apply IH; [assumption | lra].
Qed.

Lemma valued_nonneg md hs :
  (∀ h, h ∈ hs → 0 <= default 0 (h_quantity h)) →
  (∀ s tk, md !! s = Some tk → 0 <= default 0 (k_price tk)) →
  nonneg_values (valued md hs).
Proof.
  intros Hq Hp. apply Forall_forall. intros [k v] Hin.
  apply list_elem_of_omap in Hin. destruct Hin as (h & Hh & Hv).
  unfold holding_value in Hv.
  destruct (h_activeSymbol h) as [s|]; [|discriminate]. simpl in Hv.
  destruct (md !! s) as [tk|] eqn:Htk; [|discriminate]. simpl in Hv.
  injection Hv as <- <-. simpl.
  apply Qmult_le_0_compat; [now apply Hq | now apply (Hp s)].
Qed.

(** X10. On a portfolio with non-negative cash, quantities and prices,
    [analyze_risk] sends at most one concentration alert: two symbols
    cannot both hold more than 60% of the total. *)
Theorem single_concentration_alert (p : portafolio) (tx : transaction)
    (md : gmap string ticker) :
  0 <= default 0 (p_cash p) →
  (∀ h, h ∈ default [] (p_holdings p) → 0 <= default 0 (h_quantity h)) →
  (∀ s tk, md !! s = Some tk → 0 <= default 0 (k_price tk)) →
  (length (concentration_alerts (analyze_risk p tx md)) ≤ 1)%nat.
Proof.
  intros Hcash Hq Hp.
  rewrite concentration_alerts_analyze_risk.
  set (cash := default 0 (p_cash p)) in *.
  set (hs := default [] (p_holdings p)) in *.
  pose proof (valued_nonneg md hs Hq Hp) as Hnn.
  assert (Hnil : nonneg_values []) by constructor.
  destruct (dict_of_items_nonneg (valued md hs) [] Hnn Hnil) as [Hdict Hsum].
  simpl in Hsum.
  pose proof (valuation_total md cash hs) as Htotal.
  rewrite <- (valuation_dict md cash hs) in Hdict, Hsum.
  assert (H0 : 0 <= sum_values (snd (valuation md cash hs))).
  { clear -Hdict. induction Hdict; simpl; lra. }
  destruct (Qeq_dec (fst (valuation md cash hs)) 0) as [Hz|Hne].
  - rewrite concentration_check_zero by assumption. simpl. lia.
  - rewrite concentration_check_nonzero by assumption. simpl.
    rewrite length_map. apply one_exceeding_share; [lra | assumption | lra].
Qed.

Lemma single_concentration_alert_witness :
  (length (concentration_alerts (analyze_risk btc_portafolio scenario_sell btc_market)) ≤ 1)%nat.
Proof.
  apply (single_concentration_alert btc_portafolio scenario_sell btc_market).
  - vm_compute. discriminate.
  - intros h Hh. simpl in Hh.
    apply elem_of_cons in Hh. destruct Hh as [->|Hh]; [vm_compute; discriminate|].
    apply elem_of_cons in Hh. destruct Hh as [->|Hh]; [vm_compute; discriminate|].
    now apply not_elem_of_nil in Hh.
  - intros s tk Htk. unfold btc_market in Htk.
    apply lookup_insert_Some in Htk. destruct Htk as [[_ <-]|[_ Htk]]; [vm_compute; discriminate|].
    apply lookup_singleton_Some in Htk. destruct Htk as [_ <-]. vm_compute. discriminate.
Defined.

(** ** Holdings the snapshot does not price *)

Lemma valued_filter md hs : valued md (List.filter (is_valued md) hs) = valued md hs.
Proof.
  induction hs as [|h hs IH]; [reflexivity|].
  cbn [List.filter]. unfold is_valued at 1.
  destruct (holding_value md h) as [item|] eqn:Hv.
  - rewrite !(valued_cons _ _ _ _ Hv). now rewrite IH.
  - rewrite IH. unfold valued. simpl. now rewrite Hv.
Qed.

Lemma valuation_valued md cash hs hs' :
  valued md hs = valued md hs' → valuation md cash hs = valuation md cash hs'.
Proof.
  intros H. unfold valuation. now rewrite !valuation_from, H.
Qed.

(** X11. Holdings without a symbol, or whose symbol is not in the
    snapshot, count for nothing: dropping them from the portfolio changes
    neither the total, nor the recorded values, nor what [analyze_risk]
    sends. *)
Theorem unpriced_holdings_ignored (p : portafolio) (tx : transaction)
    (md : gmap string ticker) :
  let hs := default [] (p_holdings p) in
  let priced := List.filter (is_valued md) hs in
  valuation md (default 0 (p_cash p)) priced = valuation md (default 0 (p_cash p)) hs ∧
  analyze_risk (with_holdings p priced) tx md = analyze_risk p tx md.
Proof.
  intros hs priced.
  assert (Hv : valuation md (default 0 (p_cash p)) priced =
               valuation md (default 0 (p_cash p)) hs)
    by apply valuation_valued, valued_filter.
  split; [exact Hv|].
  unfold analyze_risk. simpl. fold hs. fold priced. now rewrite Hv.
Qed.



(** ** A request without a snapshot *)





(** ** Trades at or better than the quote *)



(** ** The thresholds without the quotients *)






(** ** The dispatcher *)

(** X17. Whatever the sink does (an accepted status, an error status, a
    request exception or any other exception), [send_feedback_to_nestjs]
    returns normally, having posted its one payload once. *)
Theorem dispatcher_never_raises (sink : payload → post_result)
    (id : option string) (m : message) (ty : feedback_type) :
  result (send_feedback_io sink id m ty) = inr tt ∧
  posted (trace (send_feedback_io sink id m ty)) = [Payload id m ty] ∧
  posted (trace (send_feedback_io sink id m ty)) = sent (send_feedback_to_nestjs id m ty).
Proof.
  unfold send_feedback_io, try_except, requests_post, mbind, io_mbind, io_bind.
  simpl. destruct (sink (Payload id m ty)) as [[]|[]]; simpl; auto.
Qed.

(** X18. Each call writes one log line: the info line exactly when the
    sink answers with an accepted status, the error line of the
    [RequestException] handler for an error status or a request
    exception, and the error line of the catch-all handler otherwise. *)
Theorem dispatcher_log_line (sink : payload → post_result)
    (id : option string) (m : message) (ty : feedback_type) :
  List.filter is_log (trace (send_feedback_io sink id m ty)) =
    match sink (Payload id m ty) with
    | Responds true => [LoggedInfo id ty]
    | Responds false => [LoggedError RequestException]
    | PostRaises e => [LoggedError e]
    end.
Proof.
  unfold send_feedback_io, try_except, requests_post, mbind, io_mbind, io_bind.
  simpl. destruct (sink (Payload id m ty)) as [[]|[]]; reflexivity.
Qed.

(** ** Percentages on a long-only portfolio *)

Lemma sum_values_nonneg items : nonneg_values items → 0 <= sum_values items.
Proof. intros H. induction H; simpl; lra. Qed.

Lemma item_le_sum items item :
  nonneg_values items → item ∈ items → snd item <= sum_values items.
Proof.
  intros Hnn Hin. induction Hnn as [|x l Hx Hl IH]; [now apply not_elem_of_nil in Hin|].
  pose proof (sum_values_nonneg l Hl).
  apply elem_of_cons in Hin. destruct Hin as [->|Hin]; simpl; [lra|].
  specialize (IH Hin). lra.
Qed.

Lemma quotient_at_most_one a b : 0 < b → a <= b → a / b * 100 <= 100.
Proof.
  intros Hb Hab.
  assert (H : a / b <= 1) by (apply Qle_shift_div_r; lra).
  lra.
Qed.

(** X19. On a portfolio with non-negative cash, quantities and prices,
    no risk alert reports more than 100%: neither the share of the cash
    spent nor the share of a symbol in the total. *)
Theorem risk_percentages_at_most_100 (p : portafolio) (tx : transaction)
    (md : gmap string ticker) (n : payload) :
  0 <= default 0 (p_cash p) →
  (∀ h, h ∈ default [] (p_holdings p) → 0 <= default 0 (h_quantity h)) →
  (∀ s tk, md !! s = Some tk → 0 <= default 0 (k_price tk)) →
  n ∈ sent (analyze_risk p tx md) →
  match msg n with
  | MsgAllIn percent _ | MsgConcentration percent _ => percent <= 100
  | _ => False
  end.
Proof.
  intros Hcash Hq Hp Hn. rewrite analyze_risk_eq in Hn. simpl in Hn.
  apply elem_of_app in Hn. destruct Hn as [Hn|Hn].
  - rewrite all_in_check_eq in Hn.
    destruct (str_eq _ _); simpl in Hn; [|now apply not_elem_of_nil in Hn].
    destruct (py_gt _ 0) eqn:Hpos; simpl in Hn; [|now apply not_elem_of_nil in Hn].
    destruct (py_gt _ (9 # 10)); simpl in Hn; [|now apply not_elem_of_nil in Hn].
    apply list_elem_of_singleton in Hn. subst n. simpl.
    apply py_gt_true in Hpos. apply quotient_at_most_one; lra.
  - set (cash := default 0 (p_cash p)) in *.
    set (hs := default [] (p_holdings p)) in *.
    pose proof (valued_nonneg md hs Hq Hp) as Hnn.
    assert (Hnil : nonneg_values []) by constructor.
    destruct (dict_of_items_nonneg (valued md hs) [] Hnn Hnil) as [Hdict Hsum].
    simpl in Hsum.
    pose proof (valuation_total md cash hs) as Htotal.
    pose proof (sum_values_nonneg _ Hnn) as Hpos.
    rewrite <- (valuation_dict md cash hs) in Hdict, Hsum.
    destruct (Qeq_dec (fst (valuation md cash hs)) 0) as [Hz|Hne].
    + rewrite concentration_check_zero in Hn by assumption.
      now apply not_elem_of_nil in Hn.
    + rewrite concentration_check_nonzero in Hn by assumption. simpl in Hn.
      apply list_elem_of_fmap in Hn. destruct Hn as (item & -> & Hitem).
      apply list_elem_of_In, List.filter_In in Hitem. destruct Hitem as [Hitem _].
      apply list_elem_of_In in Hitem.
      pose proof (item_le_sum _ _ Hdict Hitem) as Hle.
      simpl. apply quotient_at_most_one; lra.
Qed.

Lemma risk_percentages_at_most_100_witness :
  1 * 70000 / (0 + 1 * 70000 + 1 * 1000) * 100 <= 100.
Proof.
  apply (risk_percentages_at_most_100 btc_portafolio scenario_sell btc_market
           (alert_of (Some "p1"%string) (0 + 1 * 70000 + 1 * 1000) ("BTC"%string, 1 * 70000))).
  - vm_compute. discriminate.
  - intros h Hh. simpl in Hh.
    apply elem_of_cons in Hh. destruct Hh as [->|Hh]; [vm_compute; discriminate|].
    apply elem_of_cons in Hh. destruct Hh as [->|Hh]; [vm_compute; discriminate|].
    now apply not_elem_of_nil in Hh.
  - intros s tk Htk. unfold btc_market in Htk.
    apply lookup_insert_Some in Htk. destruct Htk as [[_ <-]|[_ Htk]]; [vm_compute; discriminate|].
    apply lookup_singleton_Some in Htk. destruct Htk as [_ <-]. vm_compute. discriminate.
  - vm_compute. apply list_elem_of_here.
Defined.

(** ** More evaluations *)

(** A sink answering with an error status: printed, posted, logged by
    the first handler, and no exception. *)
Example dispatcher_on_error_status :
  send_feedback_io failing_sink (Some "p1"%string) (MsgFomo (Some "X"%string) 3)
    BEHAVIORAL_NUDGE =
  Io [Printed (Payload (Some "p1"%string) (MsgFomo (Some "X"%string) 3) BEHAVIORAL_NUDGE);
      Posted (Payload (Some "p1"%string) (MsgFomo (Some "X"%string) 3) BEHAVIORAL_NUDGE);
      LoggedError RequestException]
     (inr tt).
Proof. reflexivity. Qed.

(** DOGE is not in the snapshot and one holding has no symbol: two
    holdings are valued. *)
Example mixed_portafolio_valued :
  valued btc_market (default [] (p_holdings mixed_portafolio)) =
    [("BTC"%string, 1 * 70000); ("ETH"%string, 1 * 1000)].
Proof. reflexivity. Qed.


Lemma handler_error_iff_witness :
  analyze_trade (Request None (Some scenario_sell) (Some scenario_market)) = ret error_response.
Proof.
  apply (handler_error_iff (Request None (Some scenario_sell) (Some scenario_market))).
  reflexivity.
Defined.
